(** * Audible library exporter and credential provisioner

    A shallow embedding of [audibleLibrary.py] and [authenticate.py].
    Python values are the JSON-shaped values the Audible API hands back,
    exceptions are an explicit error result, and the two scripts are run
    in a small state/error monad that records their observable effects. *)

From Stdlib Require Import ZArith NArith String Ascii List Bool Lia.
Set Warnings "-register-all".
Import ListNotations.
Open Scope string_scope.

(** ** Python values and exceptions *)

(** Values as the API and the scripts have them.  [PFloat z] stands for
    the float [z.0]; floats are modelled only on integral values of
    magnitude below [2^53], where Python's float [//] and [%] are exact
    and [str] prints [z.0]. *)
Inductive pyval : Type :=
| PNone
| PBool (b : bool)
| PInt (z : Z)
| PFloat (z : Z)
| PStr (s : string)
| PList (l : list pyval)
| PDict (d : list (string * pyval)).

Inductive exn : Type :=
| TypeError
| KeyError
| ValueError
| AttributeError
| OSError          (** [IOError] is an alias of [OSError] in Python 3 *)
| AuthenticationError
| APIError
| SystemExit (code : Z).

Inductive result (A : Type) : Type :=
| Ok (a : A)
| Err (e : exn).
Arguments Ok {A} a.
Arguments Err {A} e.

Definition rbind {A B} (m : result A) (k : A -> result B) : result B :=
  match m with Ok a => k a | Err e => Err e end.

Declare Scope result_scope.
Notation "x <- m ;; k" := (rbind m (fun x => k))
  (at level 61, m at next level, right associativity) : result_scope.
Open Scope result_scope.

(** ** Integers to text *)

Fixpoint uint_to_string (u : Decimal.uint) : string :=
  match u with
  | Decimal.Nil => ""
  | Decimal.D0 u => String "0" (uint_to_string u)
  | Decimal.D1 u => String "1" (uint_to_string u)
  | Decimal.D2 u => String "2" (uint_to_string u)
  | Decimal.D3 u => String "3" (uint_to_string u)
  | Decimal.D4 u => String "4" (uint_to_string u)
  | Decimal.D5 u => String "5" (uint_to_string u)
  | Decimal.D6 u => String "6" (uint_to_string u)
  | Decimal.D7 u => String "7" (uint_to_string u)
  | Decimal.D8 u => String "8" (uint_to_string u)
  | Decimal.D9 u => String "9" (uint_to_string u)
  end.

Definition decimal (z : Z) : string :=
  if (z <? 0)%Z then "-" ++ uint_to_string (N.to_uint (Z.to_N (- z)))
  else uint_to_string (N.to_uint (Z.to_N z)).

(** CPython's default [sys.get_int_max_str_digits()]: converting an int
    with more decimal digits than this to text raises [ValueError]. *)
Definition int_max_str_digits : Z := 4300.

Definition str_int (z : Z) : result string :=
  if (10 ^ int_max_str_digits <=? Z.abs z)%Z then Err ValueError
  else Ok (decimal z).

(** Numbers produced by [//] and [%]. *)
Inductive pynum : Type :=
| NInt (z : Z)
| NFloat (z : Z).

Definition str_num (n : pynum) : result string :=
  match n with
  | NInt z => str_int z
  | NFloat z => Ok (decimal z ++ ".0")
  end.

(** [x // 60] and [x % 60]: floor division and modulo, as Python has them
    for ints (bools are ints) and floats; anything else is a [TypeError]. *)
Definition py_floordiv_60 (v : pyval) : result pynum :=
  match v with
  | PInt z => Ok (NInt (z / 60))
  | PBool b => Ok (NInt ((if b then 1 else 0) / 60))
  | PFloat z => Ok (NFloat (z / 60))
  | _ => Err TypeError
  end.

Definition py_mod_60 (v : pyval) : result pynum :=
  match v with
  | PInt z => Ok (NInt (z mod 60))
  | PBool b => Ok (NInt ((if b then 1 else 0) mod 60))
  | PFloat z => Ok (NFloat (z mod 60))
  | _ => Err TypeError
  end.

(** [str.zfill(width)]: left-pad with zeros, after a leading sign. *)
Definition zfill (s : string) (width : nat) : string :=
  let n := String.length s in
  if Nat.leb width n then s
  else
    let pad := String.concat "" (repeat "0" (width - n)) in
    match s with
    | String c rest =>
        if orb (Ascii.eqb c "+") (Ascii.eqb c "-")
        then String c (pad ++ rest) else pad ++ s
    | EmptyString => pad
    end.

(** ** [convert_time] (audibleLibrary.py, lines 17-34) *)

Definition convert_time_body (runtime_minutes : pyval) : result (pyval * string) :=
  hours <- py_floordiv_60 runtime_minutes ;;
  minutes <- py_mod_60 runtime_minutes ;;
  hs <- str_num hours ;;
  ms <- str_num minutes ;;
  Ok (runtime_minutes, hs ++ ":" ++ zfill ms 2).

Definition convert_time (runtime_minutes : pyval) : result (pyval * string) :=
  match convert_time_body runtime_minutes with
  | Err TypeError | Err ValueError => Ok (PInt 0, "0:00")
  | r => r
  end.

(** ** [get_contributors] (audibleLibrary.py, lines 36-51) *)

(** [for x in v]: lists give their elements, strings their characters,
    dicts their keys; other values are not iterable. *)
Definition py_iter (v : pyval) : result (list pyval) :=
  match v with
  | PList l => Ok l
  | PStr s => Ok (map (fun c => PStr (String c EmptyString)) (list_ascii_of_string s))
  | PDict d => Ok (map (fun kv => PStr (fst kv)) d)
  | _ => Err TypeError
  end.

Fixpoint assoc (k : string) (d : list (string * pyval)) : option pyval :=
  match d with
  | [] => None
  | (k', v) :: d' => if String.eqb k k' then Some v else assoc k d'
  end.

(** [v[k]] with a string key: dicts look it up, other values refuse a
    string subscript. *)
Definition py_getitem (v : pyval) (k : string) : result pyval :=
  match v with
  | PDict d => match assoc k d with Some x => Ok x | None => Err KeyError end
  | _ => Err TypeError
  end.

Fixpoint map_result {A B} (f : A -> result B) (l : list A) : result (list B) :=
  match l with
  | [] => Ok []
  | x :: l' => y <- f x ;; ys <- map_result f l' ;; Ok (y :: ys)
  end.

(** [sep.join(xs)]: every element must be a string. *)
Definition py_join (sep : string) (xs : list pyval) : result string :=
  ss <- map_result (fun x => match x with PStr s => Ok s | _ => Err TypeError end) xs ;;
  Ok (String.concat sep ss).

Definition get_contributors_body (contributors : pyval) : result string :=
  l <- py_iter contributors ;;
  contributor_names <- map_result (fun c => py_getitem c "name") l ;;
  py_join ";" contributor_names.

Definition get_contributors (contributors : pyval) : result string :=
  match get_contributors_body contributors with
  | Err TypeError | Err KeyError => Ok "N/A"
  | r => r
  end.

(** ** Effects of the two scripts *)

Inductive level := INFO | ERROR.

(** What the scripts do to the world, in order.  The logging done inside
    the pure helpers [convert_time] and [get_contributors] is not
    recorded. *)
Inductive event : Type :=
| LogSetup                               (** [setup_logging()] *)
| Log (lvl : level)                      (** [logging.info] / [logging.error] *)
| Print                                  (** [print(...)] *)
| ReadCredential                         (** [audible.Authenticator.from_file] *)
| LibraryRequest                         (** [client.get("1.0/library", ...)] *)
| Login                                  (** [audible.Authenticator.from_login] *)
| MakeDir                                (** [path.parent.mkdir(...)] *)
| WriteCredential                        (** [auth.to_file(FILENAME)] *)
| Chmod                                  (** [os.chmod(FILENAME, 0o600)] *)
| WriteCsv (rows : list (list pyval)).   (** the rows handed to [csv.writer] *)

(** A state and error monad over the trace of events. *)
Definition M (A : Type) : Type := list event -> result A * list event.

Definition mret {A} (a : A) : M A := fun tr => (Ok a, tr).
Definition mbind {A B} (m : M A) (k : A -> M B) : M B :=
  fun tr => match m tr with
            | (Ok a, tr') => k a tr'
            | (Err e, tr') => (Err e, tr')
            end.
Definition emit (ev : event) : M unit := fun tr => (Ok tt, (tr ++ [ev])%list).
Definition raise {A} (e : exn) : M A := fun tr => (Err e, tr).
Definition lift {A} (r : result A) : M A := fun tr => (r, tr).

(** [try: m except ...]: [h e] is the handler for [e], if one matches. *)
Definition try_except {A} (m : M A) (h : exn -> option (M A)) : M A :=
  fun tr => match m tr with
            | (Err e, tr') => match h e with Some k => k tr' | None => (Err e, tr') end
            | r => r
            end.

Declare Scope monad_scope.
Notation "x <- m ;; k" := (mbind m (fun x => k))
  (at level 61, m at next level, right associativity) : monad_scope.
Notation "m ;;; k" := (mbind m (fun _ => k))
  (at level 61, right associativity) : monad_scope.

(** Exit status of a process: normal end is 0, [sys.exit(c)] is [c], an
    uncaught exception is 1. *)
Definition exit_status (r : result unit) : Z :=
  match r with
  | Ok _ => 0
  | Err (SystemExit c) => c
  | Err _ => 1
  end.

Definition run (m : M unit) : Z * list event :=
  let '(r, tr) := m [] in (exit_status r, tr).

(** ** The exporter (audibleLibrary.py, lines 53-126) *)

(** The answers of the outside world to the exporter's requests. *)
Record exporter_world := {
  auth_file_exists : bool;           (** [auth_file.exists()] *)
  from_file : result unit;           (** [Authenticator.from_file] *)
  library_get : result pyval;        (** [client.get(...)], the JSON payload *)
  output_mkdir : result unit;        (** [output_file.parent.mkdir(...)] *)
  output_write : result unit         (** opening, writing and closing the CSV
                                         file, as one answer: a failure after
                                         the file was opened is not told apart *)
}.

(** [d.get(k, default)]: only dicts have a [get] method. *)
Definition py_get (v : pyval) (k : string) (default : pyval) : result pyval :=
  match v with
  | PDict d => match assoc k d with Some x => Ok x | None => Ok default end
  | _ => Err AttributeError
  end.

(** One iteration of the loop of [get_library] (lines 87-94). *)
Definition book_row (book : pyval) : result (list pyval) :=
  authors_v <- py_get book "authors" (PList []) ;;
  authors <- get_contributors authors_v ;;
  narrators_v <- py_get book "narrators" (PList []) ;;
  narrators <- get_contributors narrators_v ;;
  title <- py_get book "title" (PStr "Unknown Title") ;;
  purchased <- py_get book "purchase_date" (PStr "Unknown Purchase Date") ;;
  released <- py_get book "release_date" (PStr "Unknown Release Date") ;;
  runtime_length <- py_get book "runtime_length_min" (PInt 0) ;;
  rt <- convert_time runtime_length ;;
  let '(runtime_mmm, runtime_hm) := rt in
  Ok [PStr authors; title; PStr narrators; runtime_mmm; PStr runtime_hm; released; purchased].

Open Scope monad_scope.

Definition get_library (w : exporter_world) : M (list (list pyval)) :=
  (if auth_file_exists w then mret tt
   else emit (Log ERROR) ;;; raise (SystemExit 1)) ;;;
  try_except (emit ReadCredential ;;; lift (from_file w))
    (fun e => match e with
              | AuthenticationError => Some (emit (Log ERROR) ;;; raise (SystemExit 1))
              | _ => None
              end) ;;;
  library <- try_except (emit LibraryRequest ;;; lift (library_get w))
    (fun e => match e with
              | APIError => Some (emit (Log ERROR) ;;; raise (SystemExit 1))
              | _ => None
              end) ;;
  items <- lift (py_get library "items" (PList [])) ;;
  books <- lift (py_iter items) ;;
  lift (map_result book_row books).

Definition fields : list string :=
  ["authors"; "title"; "narrators"; "runtime_mmm"; "runtime_hm"; "released"; "purchased"].

Definition write_library (library : list (list pyval)) (w : exporter_world) : M unit :=
  try_except
    (lift (output_mkdir w) ;;;
     lift (output_write w) ;;;
     emit (WriteCsv (map PStr fields :: library)) ;;;
     emit (Log INFO))
    (fun e => match e with
              | OSError => Some (emit (Log ERROR) ;;; raise (SystemExit 1))
              | _ => None
              end).

Definition exporter_main (w : exporter_world) : M unit :=
  emit LogSetup ;;;
  emit (Log INFO) ;;;
  library <- get_library w ;;
  write_library library w ;;;
  emit (Log INFO).

(** ** The credential provisioner (authenticate.py, lines 7-43) *)

(** Text typed at the prompts, as Python's [str] has it: a sequence of
    Unicode code points. *)
Definition ustr := list Z.

(** ASCII text as code points, for writing concrete inputs. *)
Definition ascii_codes (s : string) : ustr :=
  map (fun c => Z.of_nat (nat_of_ascii c)) (list_ascii_of_string s).

(** [Py_UNICODE_ISSPACE], the test [str.strip()] uses: the ASCII controls
    U+0009-U+000D and U+001C-U+001F, space, U+0085, U+00A0, U+1680,
    U+2000-U+200A, U+2028, U+2029, U+202F, U+205F and U+3000. *)
Definition py_isspace (c : Z) : bool :=
  let between lo hi := andb (Z.leb lo c) (Z.leb c hi) in
  existsb (fun b => b)
    [between 9 13; between 28 31; Z.eqb c 32; Z.eqb c 133; Z.eqb c 160;
     Z.eqb c 5760; between 8192 8202; Z.eqb c 8232; Z.eqb c 8233;
     Z.eqb c 8239; Z.eqb c 8287; Z.eqb c 12288]%Z.

Fixpoint lstrip_chars (l : ustr) : ustr :=
  match l with
  | c :: l' => if py_isspace c then lstrip_chars l' else l
  | [] => []
  end.

(** [s.strip()] *)
Definition py_strip (s : ustr) : ustr :=
  rev (lstrip_chars (rev (lstrip_chars s))).

(** [not s] for a text [s]. *)
Definition is_empty (s : ustr) : bool :=
  match s with [] => true | _ => false end.

(** The interactive input and the answers of the outside world. *)
Record provisioner_world := {
  user_input : ustr;                 (** [input('User: ')] *)
  password_input : ustr;             (** [getpass.getpass('Password: ')] *)
  from_login : result unit;          (** [Authenticator.from_login] *)
  auth_mkdir : result unit;          (** [FILENAME.parent.mkdir(...)] *)
  to_file : result unit;             (** [auth.to_file(FILENAME)] *)
  chmod : result unit                (** [os.chmod(FILENAME, 0o600)] *)
}.

Definition provisioner_main (w : provisioner_world) : M unit :=
  let USERNAME := py_strip (user_input w) in
  let PASSWORD := py_strip (password_input w) in
  (if orb (is_empty USERNAME) (is_empty PASSWORD)
   then emit Print ;;; raise (SystemExit 1)
   else mret tt) ;;;
  try_except (emit Login ;;; lift (from_login w))
    (fun e => match e with
              | AuthenticationError => Some (emit Print ;;; raise (SystemExit 1))
              | _ => None
              end) ;;;
  try_except
    (emit MakeDir ;;; lift (auth_mkdir w) ;;;
     emit WriteCredential ;;; lift (to_file w) ;;;
     try_except (emit Chmod ;;; lift (chmod w))
       (fun e => match e with
                 | AttributeError => Some (mret tt)
                 | _ => None
                 end) ;;;
     emit Print)
    (fun e => match e with
              | OSError => Some (emit Print ;;; raise (SystemExit 1))
              | _ => None
              end).

(** ** CSV rows (Python's [csv.writer] with its default dialect) *)

Definition has_special (s : string) : bool :=
  existsb (fun c => orb (orb (Ascii.eqb c ",") (Ascii.eqb c (ascii_of_nat 34)))
                        (orb (Ascii.eqb c (ascii_of_nat 13)) (Ascii.eqb c (ascii_of_nat 10))))
          (list_ascii_of_string s).

Definition quote_char : string := String (ascii_of_nat 34) EmptyString.

Fixpoint double_quotes (l : list ascii) : string :=
  match l with
  | [] => EmptyString
  | c :: l' =>
      if Ascii.eqb c (ascii_of_nat 34)
      then quote_char ++ quote_char ++ double_quotes l'
      else String c (double_quotes l')
  end.

(** [QUOTE_MINIMAL]: a field with a delimiter, a quote or a line break is
    quoted, its quotes doubled. *)
Definition csv_field (s : string) : string :=
  if has_special s then quote_char ++ double_quotes (list_ascii_of_string s) ++ quote_char
  else s.

Definition crlf : string := String (ascii_of_nat 13) (String (ascii_of_nat 10) EmptyString).

(** The text [writer.writerow(row)] writes for a row of strings. *)
Definition csv_writerow (row : list string) : string :=
  String.concat "," (map csv_field row) ++ crlf.

(** ** Helpers for the proofs *)

Definition digit (d : Z) : ascii := ascii_of_nat (48 + Z.to_nat d).

(** A number below 100 written with exactly two digits. *)
Definition two_digits (r : Z) : string :=
  String (digit (r / 10)) (String (digit (r mod 10)) EmptyString).

(** The value of field [k] of a dict, or [default] when it is absent. *)
Definition dget (d : list (string * pyval)) (k : string) (default : pyval) : pyval :=
  match assoc k d with Some x => x | None => default end.


(** ** Lemmas on [convert_time] *)

Lemma str_int_small (z : Z) :
  (Z.abs z < 10 ^ int_max_str_digits)%Z -> str_int z = Ok (decimal z).
Proof.
  intros H. unfold str_int.
  destruct (10 ^ int_max_str_digits <=? Z.abs z)%Z eqn:E; [|reflexivity].
  apply Z.leb_le in E. lia.
Qed.

Lemma str_int_large (z : Z) :
  (10 ^ int_max_str_digits <= Z.abs z)%Z -> str_int z = Err ValueError.
Proof.
  intros H. unfold str_int. apply Z.leb_le in H. now rewrite H.
Qed.

Lemma zfill_minutes (r : Z) :
  (0 <= r < 60)%Z -> zfill (decimal r) 2 = two_digits r.
Proof.
  intros H. replace r with (Z.of_nat (Z.to_nat r)) by lia.
  assert (Hn : (Z.to_nat r < 60)%nat) by lia.
  clear H. revert Hn. generalize (Z.to_nat r). intros n Hn.
  do 60 (destruct n as [|n]; [reflexivity|]). lia.
Qed.

Lemma pow_pos_digits : (0 < 10 ^ int_max_str_digits)%Z.
Proof. apply Z.pow_pos_nonneg; unfold int_max_str_digits; lia. Qed.

Lemma digits_bound : (100 <= 10 ^ int_max_str_digits)%Z.
Proof.
  unfold int_max_str_digits.
  apply Z.le_trans with (10 ^ 2)%Z; [lia|]. apply Z.pow_le_mono_r; lia.
Qed.

(** Side conditions [Z.abs (c / 60) < 10 ^ int_max_str_digits] and
    [c / 60 < 10 ^ int_max_str_digits] at a literal [c]. *)
Ltac small_quotient :=
  pose proof digits_bound;
  match goal with
  | |- (Z.abs ?x < _)%Z =>
      let v := eval vm_compute in (Z.abs x) in replace (Z.abs x) with v by reflexivity
  | |- (?x < _)%Z =>
      let v := eval vm_compute in x in replace x with v by reflexivity
  end; lia.

Lemma convert_time_int (m : Z) :
  (Z.abs (m / 60) < 10 ^ int_max_str_digits)%Z ->
  convert_time (PInt m) = Ok (PInt m, decimal (m / 60) ++ ":" ++ two_digits (m mod 60)).
Proof.
  intros H.
  assert (Hr : (0 <= m mod 60 < 60)%Z) by (apply Z.mod_pos_bound; lia).
  unfold convert_time, convert_time_body.
  cbn [py_floordiv_60 py_mod_60 rbind str_num].
  rewrite (str_int_small (m / 60)) by exact H.
  rewrite (str_int_small (m mod 60)).
  - cbn [rbind]. now rewrite zfill_minutes.
  - pose proof pow_pos_digits. assert (60 <= 10 ^ int_max_str_digits)%Z.
    { unfold int_max_str_digits.
      apply Z.le_trans with (10 ^ 2)%Z; [lia|]. apply Z.pow_le_mono_r; lia. }
    lia.
Qed.

Lemma convert_time_int_huge (m : Z) :
  (10 ^ int_max_str_digits <= Z.abs (m / 60))%Z ->
  convert_time (PInt m) = Ok (PInt 0, "0:00").
Proof.
  intros H. unfold convert_time, convert_time_body.
  cbn [py_floordiv_60 py_mod_60 rbind str_num].
  now rewrite (str_int_large (m / 60)) by exact H.
Qed.

Lemma convert_time_body_errors (v : pyval) (e : exn) :
  convert_time_body v = Err e -> e = TypeError \/ e = ValueError.
Proof.
  unfold convert_time_body, str_num, str_int. intros H.
  destruct v; cbn [py_floordiv_60 py_mod_60 rbind] in H;
  repeat match type of H with
         | context [if ?c then _ else _] => destruct c
         end; cbn [rbind] in H; inversion H; auto.
Qed.

Lemma convert_time_total (v : pyval) : exists r, convert_time v = Ok r.
Proof.
  unfold convert_time.
  destruct (convert_time_body v) as [r|e] eqn:E; [eauto|].
  destruct (convert_time_body_errors v e E) as [-> | ->]; eauto.
Qed.

Lemma huge_quotient (q : Z) : ((q * 60) / 60 = q)%Z.
Proof. apply Z.div_mul. lia. Qed.

Lemma convert_time_huge_mul (q : Z) :
  (10 ^ int_max_str_digits <= Z.abs q)%Z ->
  convert_time (PInt (q * 60)) = Ok (PInt 0, "0:00").
Proof. intros H. apply convert_time_int_huge. now rewrite huge_quotient. Qed.

(** ** Lemmas on [get_contributors] *)

Lemma map_result_ok {A B} (f : A -> result B) (l : list A) (ys : list B) :
  map_result f l = Ok ys <-> Forall2 (fun x y => f x = Ok y) l ys.
Proof.
  revert ys. induction l as [|x l IH]; intros ys; cbn.
  - split; intros H.
    + injection H as <-. constructor.
    + inversion H; reflexivity.
  - split; intros H.
    + destruct (f x) as [y|e] eqn:Ef; cbn in H; [|discriminate].
      destruct (map_result f l) as [ys'|e] eqn:El; cbn in H; [|discriminate].
      injection H as <-. constructor; [assumption|]. now apply IH.
    + inversion H as [|? y ? ys' Hy Hl]; subst.
      rewrite Hy. cbn. apply IH in Hl. now rewrite Hl.
Qed.

Lemma map_result_err {A B} (f : A -> result B) (l : list A) (e : exn) :
  map_result f l = Err e -> exists x, In x l /\ f x = Err e.
Proof.
  induction l as [|x l IH]; cbn; [discriminate|].
  destruct (f x) as [y|e'] eqn:Ef; cbn.
  - destruct (map_result f l) eqn:El; cbn; [discriminate|].
    intros H. injection H as ->. destruct (IH eq_refl) as (x' & Hin & Hx').
    exists x'. auto.
  - intros H. injection H as ->. exists x. auto.
Qed.

Lemma py_join_ok (sep s : string) (xs : list pyval) :
  py_join sep xs = Ok s -> Forall (fun x => exists n, x = PStr n) xs.
Proof.
  unfold py_join.
  destruct (map_result _ xs) as [ss|e] eqn:E; cbn; [|discriminate].
  intros _. apply map_result_ok in E. induction E as [|x n xs ss Hx _ IH]; constructor; auto.
  destruct x; try discriminate. eauto.
Qed.

Lemma py_join_strings (sep : string) (names : list string) :
  py_join sep (map PStr names) = Ok (String.concat sep names).
Proof.
  unfold py_join.
  assert (E : map_result (fun x => match x with PStr s => Ok s | _ => Err TypeError end)
                (map PStr names) = Ok names).
  { induction names as [|n names IH]; cbn; [reflexivity|]. now rewrite IH. }
  now rewrite E.
Qed.

Lemma get_contributors_body_errors (v : pyval) (e : exn) :
  get_contributors_body v = Err e -> e = TypeError \/ e = KeyError.
Proof.
  unfold get_contributors_body.
  destruct (py_iter v) as [l|e'] eqn:Ei; cbn.
  2:{ intros H. injection H as <-. destruct v; cbn in Ei; try discriminate; injection Ei; auto. }
  destruct (map_result _ l) as [ns|e'] eqn:Em; cbn.
  - unfold py_join. destruct (map_result _ ns) as [ss|e'] eqn:Ej; cbn; [discriminate|].
    intros H. injection H as <-. apply map_result_err in Ej as (x & _ & Hx).
    destruct x; cbn in Hx; try discriminate; injection Hx; auto.
  - intros H. injection H as <-. apply map_result_err in Em as (c & _ & Hc).
    unfold py_getitem in Hc. destruct c; try (injection Hc; auto; fail).
    destruct (assoc "name" d); [discriminate|]. injection Hc; auto.
Qed.

Lemma get_contributors_total (v : pyval) : exists s, get_contributors v = Ok s.
Proof.
  unfold get_contributors.
  destruct (get_contributors_body v) as [s|e] eqn:E; [eauto|].
  destruct (get_contributors_body_errors v e E) as [-> | ->]; eauto.
Qed.

(** The names come out only if every element has a text [name]. *)
Lemma get_contributors_body_names (l : list pyval) (s : string) :
  get_contributors_body (PList l) = Ok s ->
  forall c, In c l -> exists n, py_getitem c "name" = Ok (PStr n).
Proof.
  unfold get_contributors_body. cbn [py_iter rbind].
  destruct (map_result _ l) as [ns|e] eqn:Em; cbn; [|discriminate].
  intros Hj. apply py_join_ok in Hj. apply map_result_ok in Em.
  induction Em as [|c n l ns Hc _ IH]; intros c' Hin; [destruct Hin|].
  inversion Hj as [|? ? Hn Hns]; subst.
  destruct Hin as [<- | Hin]; [|now apply IH].
  destruct Hn as [n' ->]. eauto.
Qed.

(** ** Lemmas on the exporter *)

Lemma py_get_dict (d : list (string * pyval)) (k : string) (default : pyval) :
  py_get (PDict d) k default = Ok (dget d k default).
Proof. unfold py_get, dget. now destruct (assoc k d). Qed.

(** The row of a dict item, field by field. *)
Lemma book_row_dict (d : list (string * pyval)) :
  exists authors narrators runtime_mmm runtime_hm,
    get_contributors (dget d "authors" (PList [])) = Ok authors
    /\ get_contributors (dget d "narrators" (PList [])) = Ok narrators
    /\ convert_time (dget d "runtime_length_min" (PInt 0)) = Ok (runtime_mmm, runtime_hm)
    /\ book_row (PDict d) =
         Ok [PStr authors; dget d "title" (PStr "Unknown Title"); PStr narrators;
             runtime_mmm; PStr runtime_hm;
             dget d "release_date" (PStr "Unknown Release Date");
             dget d "purchase_date" (PStr "Unknown Purchase Date")].
Proof.
  destruct (get_contributors_total (dget d "authors" (PList []))) as [a Ha].
  destruct (get_contributors_total (dget d "narrators" (PList []))) as [n Hn].
  destruct (convert_time_total (dget d "runtime_length_min" (PInt 0))) as [[rt hm] Hc].
  exists a, n, rt, hm. repeat split; auto.
  unfold book_row. rewrite !py_get_dict. cbn [rbind].
  rewrite Ha. cbn [rbind]. rewrite Hn. cbn [rbind]. rewrite Hc. reflexivity.
Qed.

Lemma book_row_length (b : pyval) (r : list pyval) :
  book_row b = Ok r -> length r = length fields.
Proof.
  intros H. destruct b as [| | | | | |d]; try discriminate H.
  revert H. unfold book_row. rewrite !py_get_dict. cbn [rbind].
  destruct (get_contributors _); cbn [rbind]; [|discriminate].
  destruct (get_contributors _); cbn [rbind]; [|discriminate].
  destruct (convert_time _) as [[rt hm]|]; cbn [rbind]; [|discriminate].
  intros H. injection H as <-. reflexivity.
Qed.

Lemma book_rows_dicts (items : list pyval) :
  Forall (fun b => exists bd, b = PDict bd) items ->
  exists rows, map_result book_row items = Ok rows.
Proof.
  induction 1 as [|b items [bd ->] _ [rows IH]]; [exists []; reflexivity|].
  destruct (book_row_dict bd) as (a & n & rt & hm & _ & _ & _ & Hb).
  eexists. cbn. rewrite Hb. cbn [rbind]. rewrite IH. reflexivity.
Qed.

Lemma Forall2_length' {A B} (P : A -> B -> Prop) l l' :
  Forall2 P l l' -> length l' = length l.
Proof. induction 1; cbn; congruence. Qed.

(** A run of the exporter on a payload of dict items in which every
    request succeeds. *)
Lemma exporter_success (w : exporter_world) (d : list (string * pyval)) (items : list pyval) :
  auth_file_exists w = true -> from_file w = Ok tt ->
  library_get w = Ok (PDict d) -> assoc "items" d = Some (PList items) ->
  Forall (fun b => exists bd, b = PDict bd) items ->
  output_mkdir w = Ok tt -> output_write w = Ok tt ->
  exists rows,
    run (exporter_main w) =
      (0%Z, [LogSetup; Log INFO; ReadCredential; LibraryRequest;
             WriteCsv (map PStr fields :: rows); Log INFO; Log INFO])
    /\ Forall2 (fun b r => book_row b = Ok r) items rows.
Proof.
  intros He Hf Hl Hi Hd Hm Hw.
  destruct (book_rows_dicts items Hd) as [rows Hr].
  exists rows. split; [|now apply map_result_ok].
  unfold run, exporter_main, get_library, write_library, mbind, mret, emit, lift,
    try_except, raise.
  rewrite He, Hf, Hl, Hm, Hw. cbn. rewrite Hi. cbn. rewrite Hr. reflexivity.
Qed.

(** The trace of a run that stops before writing holds no CSV. *)
Ltac no_csv_written Hrun Hin :=
  injection Hrun as _ Htr; subst; cbn in Hin;
  repeat (destruct Hin as [Hin|Hin]; [discriminate Hin|]); destruct Hin.

(** Whatever the outside world answers, a CSV the exporter writes is the
    header row followed by rows of as many fields as the header. *)
Lemma exporter_csv_rows (w : exporter_world) (c : Z) (tr : list event)
      (rows : list (list pyval)) :
  run (exporter_main w) = (c, tr) -> In (WriteCsv rows) tr ->
  exists rest, rows = map PStr fields :: rest
               /\ Forall (fun r => length r = length fields) rest.
Proof.
  intros Hrun Hin.
  unfold run, exporter_main, get_library, write_library, mbind, mret, emit, lift,
    try_except, raise in Hrun.
  destruct (auth_file_exists w); cbn in Hrun; [|no_csv_written Hrun Hin].
  destruct (from_file w) as [[]|e]; cbn in Hrun;
    [|destruct e; cbn in Hrun; no_csv_written Hrun Hin].
  destruct (library_get w) as [v|e]; cbn in Hrun;
    [|destruct e; cbn in Hrun; no_csv_written Hrun Hin].
  destruct (py_get v "items" (PList [])) as [items|e]; cbn in Hrun;
    [|no_csv_written Hrun Hin].
  destruct (py_iter items) as [books|e]; cbn in Hrun; [|no_csv_written Hrun Hin].
  destruct (map_result book_row books) as [lib|e] eqn:Er; cbn in Hrun;
    [|no_csv_written Hrun Hin].
  destruct (output_mkdir w) as [[]|e]; cbn in Hrun;
    [|destruct e; cbn in Hrun; no_csv_written Hrun Hin].
  destruct (output_write w) as [[]|e]; cbn in Hrun;
    [|destruct e; cbn in Hrun; no_csv_written Hrun Hin].
  injection Hrun as _ Htr; subst; cbn in Hin.
  repeat (destruct Hin as [Hin|Hin]; [try discriminate Hin|]); [|destruct Hin].
  injection Hin as <-. exists lib. split; [reflexivity|].
  apply map_result_ok in Er. clear -Er.
  induction Er as [|b r books lib Hb _ IH]; constructor; auto.
  now apply book_row_length in Hb.
Qed.

(** ** Claims on [convert_time] *)

(** C1 (counterexample): the conversion of a non-negative integer does
    not always give [(m, "H:MM")]: at [m = 60 * 10^4300] the hour count
    has 4301 digits, [str] raises [ValueError] and the fallback
    [(0, "0:00")] is returned. *)
Lemma C1_counterexample :
  ~ (forall m, (0 <= m)%Z -> exists s, convert_time (PInt m) = Ok (PInt m, s)).
Proof.
  intros H.
  pose proof (convert_time_huge_mul (10 ^ int_max_str_digits)) as Hc.
  pose proof pow_pos_digits as Hp.
  generalize dependent (10 ^ int_max_str_digits)%Z. intros P Hc Hp.
  destruct (H (P * 60)%Z) as [s Hs]; [lia|].
  rewrite Hc in Hs by lia. injection Hs as E _. lia.
Qed.

(** C1 (amended): for a non-negative integer [m] whose hour count
    [m // 60] has at most 4300 decimal digits, [convert_time(m)] is
    [(m, str(m // 60) + ":" + two-digit (m % 60))]; for a larger [m] the
    text conversion raises [ValueError] and [(0, "0:00")] is returned.
    In particular [convert_time(125) == (125, "2:05")],
    [convert_time(59) == (59, "0:59")] and [convert_time(0) == (0, "0:00")]. *)
Theorem C1_convert_time_nonneg :
  (forall m, (0 <= m)%Z -> (m / 60 < 10 ^ int_max_str_digits)%Z ->
     convert_time (PInt m) = Ok (PInt m, decimal (m / 60) ++ ":" ++ two_digits (m mod 60)))
  /\ (forall m, (10 ^ int_max_str_digits <= m / 60)%Z ->
     convert_time (PInt m) = Ok (PInt 0, "0:00"))
  /\ convert_time (PInt 125) = Ok (PInt 125, "2:05")
  /\ convert_time (PInt 59) = Ok (PInt 59, "0:59")
  /\ convert_time (PInt 0) = Ok (PInt 0, "0:00").
Proof.
  split; [|split; [|split; [|split]]].
  - intros m Hm Hq. apply convert_time_int.
    assert (0 <= m / 60)%Z by (apply Z.div_pos; lia). lia.
  - intros m Hq. apply convert_time_int_huge.
    pose proof pow_pos_digits. lia.
  - rewrite convert_time_int by (small_quotient). reflexivity.
  - rewrite convert_time_int by (small_quotient). reflexivity.
  - rewrite convert_time_int by (small_quotient). reflexivity.
Qed.

Lemma C1_witness :
  ((0 <= 3725)%Z /\ (3725 / 60 < 10 ^ int_max_str_digits)%Z /\
   convert_time (PInt 3725) = Ok (PInt 3725, decimal 62 ++ ":" ++ two_digits 5))
  /\ ((10 ^ int_max_str_digits <= (10 ^ int_max_str_digits * 60) / 60)%Z /\
   convert_time (PInt (10 ^ int_max_str_digits * 60)) = Ok (PInt 0, "0:00")).
Proof.
  split.
  - split; [lia|]. split; [small_quotient|].
    apply (proj1 C1_convert_time_nonneg 3725%Z); [lia|small_quotient].
  - split; [rewrite huge_quotient; lia|].
    apply (proj1 (proj2 C1_convert_time_nonneg)). rewrite huge_quotient; lia.
Defined.




(** C10 (counterexample): a negative integer can still hit the fallback:
    at [m = -60 * 10^4300] the hour count [-10^4300] has 4301 digits,
    [str] raises [ValueError] and [(0, "0:00")] is returned. *)
Lemma C10_counterexample :
  ~ (forall m, (m < 0)%Z -> exists s, convert_time (PInt m) = Ok (PInt m, s)).
Proof.
  intros H.
  pose proof (convert_time_huge_mul (- 10 ^ int_max_str_digits)) as Hc.
  pose proof pow_pos_digits as Hp.
  generalize dependent (10 ^ int_max_str_digits)%Z. intros P Hc Hp.
  destruct (H (- P * 60)%Z) as [s Hs]; [lia|].
  rewrite Hc in Hs by lia. injection Hs as E _. lia.
Qed.

(** C10 (amended): for a negative integer [m] whose hour count has at
    most 4300 decimal digits, [convert_time(m)] returns [(m, s)] with [s]
    built from floor division and a remainder in [0, 60), e.g.
    [convert_time(-5) == (-5, "-1:55")] and
    [convert_time(-60) == (-60, "-1:00")]; for a larger hour count [str]
    raises [ValueError] and [(0, "0:00")] is returned. *)
Theorem C10_convert_time_negative :
  (forall m, (m < 0)%Z -> (Z.abs (m / 60) < 10 ^ int_max_str_digits)%Z ->
     (0 <= m mod 60 < 60)%Z /\ (m = 60 * (m / 60) + m mod 60)%Z /\
     convert_time (PInt m) = Ok (PInt m, decimal (m / 60) ++ ":" ++ two_digits (m mod 60)))
  /\ (forall m, (m < 0)%Z -> (10 ^ int_max_str_digits <= Z.abs (m / 60))%Z ->
     convert_time (PInt m) = Ok (PInt 0, "0:00"))
  /\ convert_time (PInt (-5)) = Ok (PInt (-5), "-1:55")
  /\ convert_time (PInt (-60)) = Ok (PInt (-60), "-1:00").
Proof.
  split; [|split; [|split]].
  - intros m Hm Hq. split; [apply Z.mod_pos_bound; lia|].
    split; [apply Z.div_mod; lia|]. now apply convert_time_int.
  - intros m _ Hq. now apply convert_time_int_huge.
  - rewrite convert_time_int by (small_quotient). reflexivity.
  - rewrite convert_time_int by (small_quotient). reflexivity.
Qed.

Lemma C10_witness :
  ((-125 < 0)%Z /\ (Z.abs (-125 / 60) < 10 ^ int_max_str_digits)%Z /\
   convert_time (PInt (-125)) = Ok (PInt (-125), decimal (-3) ++ ":" ++ two_digits 55))
  /\ convert_time (PInt (- 10 ^ int_max_str_digits * 60)) = Ok (PInt 0, "0:00").
Proof.
  split.
  - split; [lia|]. split; [small_quotient|].
    apply (proj1 C10_convert_time_negative (-125)%Z); [lia|small_quotient].
  - pose proof pow_pos_digits.
    apply (proj1 (proj2 C10_convert_time_negative)); [lia|].
    rewrite huge_quotient. lia.
Defined.

(** ** Claim on [get_contributors] *)

(** C2: on a list of contributor records each with a text [name],
    [get_contributors] joins the names with [";"] in input order
    ([[{"name":"A"},{"name":"B"}]] gives ["A;B"], [[]] gives [""]); a list
    with one element lacking a text [name] gives ["N/A"], as does an input
    that cannot be iterated into records ([None], a number, a non-empty
    string or dict); it never raises. *)
Theorem C2_get_contributors :
  (forall l names, Forall2 (fun c n => py_getitem c "name" = Ok (PStr n)) l names ->
     get_contributors (PList l) = Ok (String.concat ";" names))
  /\ (forall l c, In c l -> (forall n, py_getitem c "name" <> Ok (PStr n)) ->
     get_contributors (PList l) = Ok "N/A")
  /\ (forall v, match v with
                | PList _ => False
                | PStr s => s <> EmptyString
                | PDict d => d <> []
                | _ => True
                end -> get_contributors v = Ok "N/A")
  /\ (forall v, exists s, get_contributors v = Ok s)
  /\ get_contributors (PList [PDict [("name", PStr "A")]; PDict [("name", PStr "B")]]) = Ok "A;B"
  /\ get_contributors (PList []) = Ok ""
  /\ get_contributors PNone = Ok "N/A"
  /\ get_contributors (PList [PDict [("name", PStr "A")]; PDict [("id", PStr "B")]]) = Ok "N/A".
Proof.
  split; [|split; [|split; [|split; [exact get_contributors_total|]]]].
  - intros l names H.
    assert (Hm : map_result (fun c => py_getitem c "name") l = Ok (map PStr names)).
    { apply map_result_ok. induction H; cbn; constructor; auto. }
    unfold get_contributors, get_contributors_body. cbn [py_iter rbind].
    rewrite Hm. cbn [rbind]. now rewrite py_join_strings.
  - intros l c Hin Hc. unfold get_contributors.
    destruct (get_contributors_body (PList l)) as [s|e] eqn:E.
    + destruct (get_contributors_body_names l s E c Hin) as [n Hn].
      exfalso. exact (Hc n Hn).
    + destruct (get_contributors_body_errors _ e E) as [-> | ->]; reflexivity.
  - intros v Hv. destruct v as [| | | |s|l|d]; try reflexivity; try contradiction.
    + destruct s as [|c s]; [contradiction|reflexivity].
    + destruct d as [|[k x] d]; [contradiction|reflexivity].
  - repeat split; reflexivity.
Qed.

Lemma C2_witness :
  get_contributors (PList [PDict [("name", PStr "Ann"); ("asin", PStr "X1")];
                           PDict [("name", PStr "Bo")]]) = Ok "Ann;Bo"
  /\ get_contributors (PList [PDict [("name", PStr "Ann")]; PStr "Bo"]) = Ok "N/A"
  /\ get_contributors (PStr "Ann") = Ok "N/A".
Proof.
  split; [|split].
  - apply (proj1 C2_get_contributors _ ["Ann"; "Bo"]).
    repeat constructor.
  - apply (proj1 (proj2 C2_get_contributors) _ (PStr "Bo")).
    + right. left. reflexivity.
    + intros n. discriminate.
  - apply (proj1 (proj2 (proj2 C2_get_contributors)) (PStr "Ann")). discriminate.
Defined.

(** ** Claims on the exporter *)

(** C3: for a payload of N item records, a run in which the credential
    file exists and every request succeeds writes a CSV of N+1 rows, the
    header and then one row per item in the order the API returned them. *)
Theorem C3_csv_rows_in_api_order
    (w : exporter_world) (d : list (string * pyval)) (items : list pyval) :
  auth_file_exists w = true -> from_file w = Ok tt ->
  library_get w = Ok (PDict d) -> assoc "items" d = Some (PList items) ->
  Forall (fun b => exists bd, b = PDict bd) items ->
  output_mkdir w = Ok tt -> output_write w = Ok tt ->
  exists rows,
    run (exporter_main w) =
      (0%Z, [LogSetup; Log INFO; ReadCredential; LibraryRequest;
             WriteCsv (map PStr fields :: rows); Log INFO; Log INFO])
    /\ length (map PStr fields :: rows) = length items + 1
    /\ (forall i b, nth_error items i = Some b ->
          exists r, nth_error (map PStr fields :: rows) (S i) = Some r
                    /\ book_row b = Ok r).
Proof.
  intros He Hf Hl Hi Hd Hm Hw.
  destruct (exporter_success w d items He Hf Hl Hi Hd Hm Hw) as [rows [Hrun Hrows]].
  exists rows. split; [exact Hrun|]. split.
  - cbn. rewrite (Forall2_length' _ _ _ Hrows). lia.
  - cbn [nth_error]. clear -Hrows. induction Hrows as [|b' r items rows Hb _ IH];
      intros [|i] b Hnth; cbn in Hnth; try discriminate.
    + injection Hnth as <-. exists r. auto.
    + exact (IH i b Hnth).
Qed.

Definition sample_world : exporter_world := {|
  auth_file_exists := true;
  from_file := Ok tt;
  library_get := Ok (PDict [("items", PList
     [PDict [("title", PStr "Dune"); ("runtime_length_min", PInt 1260);
             ("authors", PList [PDict [("name", PStr "Frank Herbert")]])];
      PDict [("title", PStr "Emma")]])]);
  output_mkdir := Ok tt;
  output_write := Ok tt |}.

Lemma C3_witness :
  exists rows,
    run (exporter_main sample_world) =
      (0%Z, [LogSetup; Log INFO; ReadCredential; LibraryRequest;
             WriteCsv (map PStr fields :: rows); Log INFO; Log INFO])
    /\ length (map PStr fields :: rows) = 3
    /\ (forall i b, nth_error
                      [PDict [("title", PStr "Dune"); ("runtime_length_min", PInt 1260);
                              ("authors", PList [PDict [("name", PStr "Frank Herbert")]])];
                       PDict [("title", PStr "Emma")]] i = Some b ->
          exists r, nth_error (map PStr fields :: rows) (S i) = Some r
                    /\ book_row b = Ok r).
Proof.
  apply (C3_csv_rows_in_api_order sample_world _ _ eq_refl eq_refl eq_refl eq_refl).
  - repeat constructor; eexists; reflexivity.
  - reflexivity.
  - reflexivity.
Defined.

(** C4: the header line is exactly
    [authors,title,narrators,runtime_mmm,runtime_hm,released,purchased];
    every row of an item record holds seven fields in that order, and any
    CSV the exporter writes is that header followed by seven-field rows. *)
Theorem C4_header_and_row_shape :
  csv_writerow fields = "authors,title,narrators,runtime_mmm,runtime_hm,released,purchased" ++ crlf
  /\ length fields = 7
  /\ (forall d, exists authors narrators runtime_mmm runtime_hm,
        get_contributors (dget d "authors" (PList [])) = Ok authors
        /\ get_contributors (dget d "narrators" (PList [])) = Ok narrators
        /\ convert_time (dget d "runtime_length_min" (PInt 0)) = Ok (runtime_mmm, runtime_hm)
        /\ book_row (PDict d) =
             Ok [PStr authors; dget d "title" (PStr "Unknown Title"); PStr narrators;
                 runtime_mmm; PStr runtime_hm;
                 dget d "release_date" (PStr "Unknown Release Date");
                 dget d "purchase_date" (PStr "Unknown Purchase Date")])
  /\ (forall w c tr rows, run (exporter_main w) = (c, tr) -> In (WriteCsv rows) tr ->
        exists rest, rows = map PStr fields :: rest
                     /\ Forall (fun r => length r = 7) rest).
Proof.
  split; [reflexivity|]. split; [reflexivity|]. split; [exact book_row_dict|].
  intros w c tr rows Hrun Hin. exact (exporter_csv_rows w c tr rows Hrun Hin).
Qed.

Lemma C4_witness :
  exists rest, [map PStr fields; [PStr "N/A"; PStr "Emma"; PStr ""; PInt 0; PStr "0:00";
                                  PStr "Unknown Release Date"; PStr "Unknown Purchase Date"]]
               = map PStr fields :: rest /\ Forall (fun r => length r = 7) rest.
Proof.
  apply (proj2 (proj2 (proj2 C4_header_and_row_shape))
           {| auth_file_exists := true; from_file := Ok tt;
              library_get := Ok (PDict [("items", PList [PDict [("title", PStr "Emma");
                                                                 ("authors", PNone)]])]);
              output_mkdir := Ok tt; output_write := Ok tt |} 0%Z
           [LogSetup; Log INFO; ReadCredential; LibraryRequest;
            WriteCsv [map PStr fields; [PStr "N/A"; PStr "Emma"; PStr ""; PInt 0; PStr "0:00";
                                        PStr "Unknown Release Date"; PStr "Unknown Purchase Date"]];
            Log INFO; Log INFO]).
  - vm_compute. reflexivity.
  - right. right. right. right. left. reflexivity.
Defined.

(** C7: when the credential file does not exist, the exporter exits with
    status 1 before loading the credential or requesting the library. *)
Theorem C7_missing_auth_file_no_network (w : exporter_world) :
  auth_file_exists w = false ->
  exists tr, run (exporter_main w) = (1%Z, tr)
             /\ tr = [LogSetup; Log INFO; Log ERROR]
             /\ ~ In ReadCredential tr /\ ~ In LibraryRequest tr.
Proof.
  intros He. exists [LogSetup; Log INFO; Log ERROR].
  split; [|split; [reflexivity|]].
  - unfold run, exporter_main, get_library, mbind, mret, emit, raise.
    rewrite He. reflexivity.
  - split; cbn; intuition discriminate.
Qed.

Lemma C7_witness :
  exists tr, run (exporter_main {| auth_file_exists := false; from_file := Ok tt;
                                   library_get := Ok (PDict []);
                                   output_mkdir := Ok tt; output_write := Ok tt |})
             = (1%Z, tr)
             /\ tr = [LogSetup; Log INFO; Log ERROR]
             /\ ~ In ReadCredential tr /\ ~ In LibraryRequest tr.
Proof. apply C7_missing_auth_file_no_network. reflexivity. Defined.

(** C9: an item record with missing fields still gives one seven-field
    row: a missing [runtime_length_min] gives [0] and ["0:00"], a missing
    [title], [release_date] or [purchase_date] its default text; a run over
    such records ends normally with one row per item. *)
Theorem C9_missing_fields_defaults :
  (forall d, exists r, book_row (PDict d) = Ok r /\ length r = 7
     /\ (assoc "runtime_length_min" d = None -> nth 3 r PNone = PInt 0 /\ nth 4 r PNone = PStr "0:00")
     /\ (assoc "title" d = None -> nth 1 r PNone = PStr "Unknown Title")
     /\ (assoc "release_date" d = None -> nth 5 r PNone = PStr "Unknown Release Date")
     /\ (assoc "purchase_date" d = None -> nth 6 r PNone = PStr "Unknown Purchase Date"))
  /\ (forall w d items,
        auth_file_exists w = true -> from_file w = Ok tt ->
        library_get w = Ok (PDict d) -> assoc "items" d = Some (PList items) ->
        Forall (fun b => exists bd, b = PDict bd) items ->
        output_mkdir w = Ok tt -> output_write w = Ok tt ->
        exists rows, fst (run (exporter_main w)) = 0%Z
                     /\ In (WriteCsv (map PStr fields :: rows)) (snd (run (exporter_main w)))
                     /\ length rows = length items).
Proof.
  split.
  - intros d. destruct (book_row_dict d) as (a & n & rt & hm & _ & _ & Hc & Hb).
    eexists. split; [exact Hb|]. split; [reflexivity|]. cbn [nth].
    unfold dget in *. split; [|split; [|split]]; intros Hk; rewrite Hk in *; try reflexivity.
    rewrite convert_time_int in Hc by small_quotient.
    injection Hc as <- <-. split; reflexivity.
  - intros w d items He Hf Hl Hi Hd Hm Hw.
    destruct (exporter_success w d items He Hf Hl Hi Hd Hm Hw) as [rows [Hrun Hrows]].
    exists rows. rewrite Hrun. cbn [fst snd]. split; [reflexivity|]. split.
    + right. right. right. right. left. reflexivity.
    + exact (Forall2_length' _ _ _ Hrows).
Qed.

Lemma C9_witness :
  (exists r, book_row (PDict []) = Ok r /\ length r = 7
     /\ (nth 3 r PNone = PInt 0 /\ nth 4 r PNone = PStr "0:00")
     /\ nth 1 r PNone = PStr "Unknown Title")
  /\ (exists rows, fst (run (exporter_main sample_world)) = 0%Z
                   /\ In (WriteCsv (map PStr fields :: rows)) (snd (run (exporter_main sample_world)))
                   /\ length rows = 2).
Proof.
  split.
  - destruct (proj1 C9_missing_fields_defaults []) as (r & Hb & Hl & Hrt & Ht & _).
    exists r. split; [exact Hb|]. split; [exact Hl|].
    split; [apply Hrt; reflexivity | apply Ht; reflexivity].
  - apply (proj2 C9_missing_fields_defaults sample_world _ _ eq_refl eq_refl eq_refl eq_refl).
    + repeat constructor; eexists; reflexivity.
    + reflexivity.
    + reflexivity.
Defined.

(** ** Claims on the provisioner *)

(** C6: when the username or the password is empty after [strip()]
    (Unicode whitespace included), the provisioner prints its message and
    exits with status 1 without logging in, creating the directory or
    writing the credential file. *)
Theorem C6_empty_credentials_rejected (w : provisioner_world) :
  py_strip (user_input w) = [] \/ py_strip (password_input w) = [] ->
  run (provisioner_main w) = (1%Z, [Print])
  /\ ~ In Login [Print] /\ ~ In WriteCredential [Print] /\ ~ In MakeDir [Print].
Proof.
  intros H. split; [|cbn; intuition discriminate].
  unfold run, provisioner_main, mbind, mret, emit, raise.
  assert (E : orb (is_empty (py_strip (user_input w)))
                  (is_empty (py_strip (password_input w))) = true).
  { destruct H as [H|H]; rewrite H; cbn; [reflexivity|apply orb_true_r]. }
  rewrite E. reflexivity.
Qed.

(** A username of one no-break space (U+00A0) strips to the empty text. *)
Lemma C6_witness :
  run (provisioner_main {| user_input := [160%Z];
                           password_input := ascii_codes "hunter2";
                           from_login := Ok tt; auth_mkdir := Ok tt;
                           to_file := Ok tt; chmod := Ok tt |}) = (1%Z, [Print])
  /\ ~ In Login [Print] /\ ~ In WriteCredential [Print] /\ ~ In MakeDir [Print].
Proof. apply C6_empty_credentials_rejected. left. reflexivity. Defined.

(** C8 (code defect): a successful login whose credential file is written
    but whose [os.chmod] raises [OSError] (e.g. [PermissionError] on a
    file system without POSIX permissions) is not tolerated: only
    [AttributeError] is caught around [os.chmod], the [OSError] reaches the
    outer [except IOError], which reports a failed write and exits with
    status 1.  With [AttributeError] the run ends normally. *)
Theorem C8_chmod_failure_is_fatal :
  run (provisioner_main {| user_input := ascii_codes "alice"; password_input := ascii_codes "secret";
                           from_login := Ok tt; auth_mkdir := Ok tt;
                           to_file := Ok tt; chmod := Err OSError |})
    = (1%Z, [Login; MakeDir; WriteCredential; Chmod; Print])
  /\ run (provisioner_main {| user_input := ascii_codes "alice"; password_input := ascii_codes "secret";
                              from_login := Ok tt; auth_mkdir := Ok tt;
                              to_file := Ok tt; chmod := Err AttributeError |})
    = (0%Z, [Login; MakeDir; WriteCredential; Chmod; Print]).
Proof. split; reflexivity. Qed.

(** ** Further properties of the exporter *)

Ltac unfold_exporter :=
  unfold run, exporter_main, get_library, write_library, mbind, mret, emit, lift,
    try_except, raise.

(** A credential file that does not load ([AuthenticationError]) ends the
    run with status 1 right after the attempt, before the library request. *)
Theorem exporter_auth_failure (w : exporter_world) :
  auth_file_exists w = true -> from_file w = Err AuthenticationError ->
  run (exporter_main w) = (1%Z, [LogSetup; Log INFO; ReadCredential; Log ERROR]).
Proof. intros He Hf. unfold_exporter. rewrite He, Hf. reflexivity. Qed.

Lemma exporter_auth_failure_witness :
  run (exporter_main {| auth_file_exists := true; from_file := Err AuthenticationError;
                        library_get := Ok (PDict []); output_mkdir := Ok tt;
                        output_write := Ok tt |})
  = (1%Z, [LogSetup; Log INFO; ReadCredential; Log ERROR]).
Proof. apply exporter_auth_failure; reflexivity. Defined.

(** A failed library request ([APIError]) ends the run with status 1 and
    no CSV. *)
Theorem exporter_api_failure (w : exporter_world) :
  auth_file_exists w = true -> from_file w = Ok tt -> library_get w = Err APIError ->
  run (exporter_main w)
  = (1%Z, [LogSetup; Log INFO; ReadCredential; LibraryRequest; Log ERROR]).
Proof. intros He Hf Hl. unfold_exporter. rewrite He, Hf, Hl. reflexivity. Qed.

Lemma exporter_api_failure_witness :
  run (exporter_main {| auth_file_exists := true; from_file := Ok tt;
                        library_get := Err APIError; output_mkdir := Ok tt;
                        output_write := Ok tt |})
  = (1%Z, [LogSetup; Log INFO; ReadCredential; LibraryRequest; Log ERROR]).
Proof. apply exporter_api_failure; reflexivity. Defined.

(** When creating the output directory raises [OSError], the run ends
    with status 1 after the library was fetched, before the CSV file is
    opened. *)
Theorem exporter_write_failure (w : exporter_world) (d : list (string * pyval))
    (items : list pyval) :
  auth_file_exists w = true -> from_file w = Ok tt ->
  library_get w = Ok (PDict d) -> assoc "items" d = Some (PList items) ->
  Forall (fun b => exists bd, b = PDict bd) items ->
  output_mkdir w = Err OSError ->
  run (exporter_main w)
  = (1%Z, [LogSetup; Log INFO; ReadCredential; LibraryRequest; Log ERROR]).
Proof.
  intros He Hf Hl Hi Hd Hm.
  destruct (book_rows_dicts items Hd) as [rows Hr].
  unfold_exporter. rewrite He, Hf, Hl. cbn. rewrite Hi. cbn. rewrite Hr. cbn.
  rewrite Hm. reflexivity.
Qed.

Lemma exporter_write_failure_witness :
  run (exporter_main {| auth_file_exists := true; from_file := Ok tt;
                        library_get := Ok (PDict [("items", PList [PDict []])]);
                        output_mkdir := Err OSError; output_write := Ok tt |})
  = (1%Z, [LogSetup; Log INFO; ReadCredential; LibraryRequest; Log ERROR]).
Proof.
  apply (exporter_write_failure _ [("items", PList [PDict []])] [PDict []]);
    try reflexivity.
  repeat constructor. eexists; reflexivity.
Defined.

(** A payload without an ["items"] key is an empty library: the run ends
    normally and the CSV holds only the header row. *)
Theorem exporter_no_items_key (w : exporter_world) (d : list (string * pyval)) :
  auth_file_exists w = true -> from_file w = Ok tt ->
  library_get w = Ok (PDict d) -> assoc "items" d = None ->
  output_mkdir w = Ok tt -> output_write w = Ok tt ->
  run (exporter_main w)
  = (0%Z, [LogSetup; Log INFO; ReadCredential; LibraryRequest;
           WriteCsv [map PStr fields]; Log INFO; Log INFO]).
Proof.
  intros He Hf Hl Hi Hm Hw.
  unfold_exporter. rewrite He, Hf, Hl, Hm, Hw. cbn. rewrite Hi. reflexivity.
Qed.

Lemma exporter_no_items_key_witness :
  run (exporter_main {| auth_file_exists := true; from_file := Ok tt;
                        library_get := Ok (PDict [("response_groups", PList [])]);
                        output_mkdir := Ok tt; output_write := Ok tt |})
  = (0%Z, [LogSetup; Log INFO; ReadCredential; LibraryRequest;
           WriteCsv [map PStr fields]; Log INFO; Log INFO]).
Proof. apply (exporter_no_items_key _ [("response_groups", PList [])]); reflexivity. Defined.

Lemma book_row_not_dict (b : pyval) :
  (forall bd, b <> PDict bd) -> book_row b = Err AttributeError.
Proof. intros H. destruct b; try reflexivity. exfalso. eapply H. reflexivity. Qed.

Lemma map_result_first_err {A B} (f : A -> result B) (l : list A) (x : A) (e : exn) :
  In x l -> f x = Err e -> exists e', map_result f l = Err e'.
Proof.
  induction l as [|y l IH]; intros Hin Hx; [destruct Hin|].
  cbn. destruct (f y) as [z|e'] eqn:Ey; cbn; [|eauto].
  destruct Hin as [-> | Hin]; [congruence|].
  destruct (IH Hin Hx) as [e' He']. rewrite He'. cbn. eauto.
Qed.

Lemma book_row_errors (b : pyval) (e : exn) :
  book_row b = Err e -> e = AttributeError.
Proof.
  intros H. destruct b as [| | | | | |d]; try (injection H; auto; fail).
  destruct (book_row_dict d) as (a & n & rt & hm & _ & _ & _ & Hb). congruence.
Qed.

(** One item that is not a dict (a string, a list, null, ...) makes
    [book.get] raise [AttributeError], which nothing catches: the run ends
    with status 1 and no CSV is written, the well-formed items included. *)
Theorem exporter_non_dict_item (w : exporter_world) (d : list (string * pyval))
    (items : list pyval) (b : pyval) :
  auth_file_exists w = true -> from_file w = Ok tt ->
  library_get w = Ok (PDict d) -> assoc "items" d = Some (PList items) ->
  In b items -> (forall bd, b <> PDict bd) ->
  run (exporter_main w) = (1%Z, [LogSetup; Log INFO; ReadCredential; LibraryRequest]).
Proof.
  intros He Hf Hl Hi Hin Hb.
  destruct (map_result_first_err book_row items b AttributeError Hin (book_row_not_dict b Hb))
    as [e Hr].
  assert (e = AttributeError) as ->.
  { apply map_result_err in Hr as (x & _ & Hx). exact (book_row_errors x e Hx). }
  unfold_exporter. rewrite He, Hf, Hl. cbn. rewrite Hi. cbn. rewrite Hr. reflexivity.
Qed.

Lemma exporter_non_dict_item_witness :
  run (exporter_main {| auth_file_exists := true; from_file := Ok tt;
                        library_get := Ok (PDict [("items", PList [PDict []; PStr "x"])]);
                        output_mkdir := Ok tt; output_write := Ok tt |})
  = (1%Z, [LogSetup; Log INFO; ReadCredential; LibraryRequest]).
Proof.
  apply (exporter_non_dict_item _ [("items", PList [PDict []; PStr "x"])]
           [PDict []; PStr "x"] (PStr "x")); try reflexivity.
  - right. left. reflexivity.
  - intros bd. discriminate.
Defined.

(** A payload that is not a dict (e.g. a JSON list) has no [get]: the run
    ends with status 1 and no CSV. *)
Theorem exporter_payload_not_dict (w : exporter_world) (v : pyval) :
  auth_file_exists w = true -> from_file w = Ok tt ->
  library_get w = Ok v -> (forall d, v <> PDict d) ->
  run (exporter_main w) = (1%Z, [LogSetup; Log INFO; ReadCredential; LibraryRequest]).
Proof.
  intros He Hf Hl Hv. unfold_exporter. rewrite He, Hf, Hl. cbn.
  destruct v; try reflexivity. exfalso. eapply Hv. reflexivity.
Qed.

Lemma exporter_payload_not_dict_witness :
  run (exporter_main {| auth_file_exists := true; from_file := Ok tt;
                        library_get := Ok (PList [PDict []]);
                        output_mkdir := Ok tt; output_write := Ok tt |})
  = (1%Z, [LogSetup; Log INFO; ReadCredential; LibraryRequest]).
Proof. apply (exporter_payload_not_dict _ (PList [PDict []])); try reflexivity. discriminate. Defined.

(** ** Further properties of the provisioner *)

Section Provisioner.
Local Open Scope list_scope.

Ltac unfold_provisioner :=
  unfold run, provisioner_main, mbind, mret, emit, lift, try_except, raise.

(** [t <> []] at a concrete text. *)
Ltac nonempty_text := let H := fresh in intros H; vm_compute in H; discriminate H.

Lemma credentials_present (w : provisioner_world) :
  py_strip (user_input w) <> [] -> py_strip (password_input w) <> [] ->
  orb (is_empty (py_strip (user_input w))) (is_empty (py_strip (password_input w))) = false.
Proof.
  intros Hu Hp.
  destruct (py_strip (user_input w)); [contradiction|].
  destruct (py_strip (password_input w)); [contradiction|]. reflexivity.
Qed.

(** A rejected login ([AuthenticationError]) ends the run with status 1:
    nothing is created or written. *)
Theorem provisioner_login_failure (w : provisioner_world) :
  py_strip (user_input w) <> [] -> py_strip (password_input w) <> [] ->
  from_login w = Err AuthenticationError ->
  run (provisioner_main w) = (1%Z, [Login; Print]).
Proof.
  intros Hu Hp Hl. unfold_provisioner. rewrite (credentials_present w Hu Hp), Hl.
  reflexivity.
Qed.

Definition sample_login : provisioner_world := {|
  user_input := ascii_codes " alice@example.com "; password_input := ascii_codes "secret";
  from_login := Ok tt; auth_mkdir := Ok tt; to_file := Ok tt; chmod := Ok tt |}.

Lemma provisioner_login_failure_witness :
  run (provisioner_main {| user_input := user_input sample_login;
                           password_input := password_input sample_login;
                           from_login := Err AuthenticationError; auth_mkdir := Ok tt;
                           to_file := Ok tt; chmod := Ok tt |}) = (1%Z, [Login; Print]).
Proof. apply provisioner_login_failure; try nonempty_text. reflexivity. Defined.

(** After a successful login, an [OSError] while creating the directory or
    writing the credential file ends the run with status 1; [os.chmod] is
    then never called. *)
Theorem provisioner_write_failure (w : provisioner_world) :
  py_strip (user_input w) <> [] -> py_strip (password_input w) <> [] ->
  from_login w = Ok tt ->
  (auth_mkdir w = Err OSError -> run (provisioner_main w) = (1%Z, [Login; MakeDir; Print]))
  /\ (auth_mkdir w = Ok tt -> to_file w = Err OSError ->
      run (provisioner_main w) = (1%Z, [Login; MakeDir; WriteCredential; Print])).
Proof.
  intros Hu Hp Hl. unfold_provisioner. rewrite (credentials_present w Hu Hp), Hl.
  split; intros Hm; [|intros Ht]; rewrite Hm; cbn; [reflexivity|]. rewrite Ht. reflexivity.
Qed.

Lemma provisioner_write_failure_witness :
  run (provisioner_main {| user_input := user_input sample_login;
                           password_input := password_input sample_login;
                           from_login := Ok tt; auth_mkdir := Ok tt;
                           to_file := Err OSError; chmod := Ok tt |})
  = (1%Z, [Login; MakeDir; WriteCredential; Print]).
Proof.
  apply provisioner_write_failure; try nonempty_text; reflexivity.
Defined.

(** With non-empty credentials, a successful login and a successful write,
    the run ends with status 0 whether [os.chmod] succeeds or is missing
    ([AttributeError]). *)
Theorem provisioner_success (w : provisioner_world) :
  py_strip (user_input w) <> [] -> py_strip (password_input w) <> [] ->
  from_login w = Ok tt -> auth_mkdir w = Ok tt -> to_file w = Ok tt ->
  (chmod w = Ok tt \/ chmod w = Err AttributeError) ->
  run (provisioner_main w) = (0%Z, [Login; MakeDir; WriteCredential; Chmod; Print]).
Proof.
  intros Hu Hp Hl Hm Ht Hc. unfold_provisioner.
  rewrite (credentials_present w Hu Hp), Hl, Hm, Ht.
  destruct Hc as [Hc|Hc]; rewrite Hc; reflexivity.
Qed.

Lemma provisioner_success_witness :
  run (provisioner_main sample_login) = (0%Z, [Login; MakeDir; WriteCredential; Chmod; Print]).
Proof. apply provisioner_success; try nonempty_text; try reflexivity. left. reflexivity. Defined.

(** Whatever the outside world answers, the credential file is written
    only after both stripped inputs were non-empty, the login succeeded and
    the directory was created, in that order. *)
Theorem provisioner_write_needs_login (w : provisioner_world) (c : Z) (tr : list event) :
  run (provisioner_main w) = (c, tr) -> In WriteCredential tr ->
  py_strip (user_input w) <> [] /\ py_strip (password_input w) <> []
  /\ from_login w = Ok tt /\ auth_mkdir w = Ok tt
  /\ exists rest, tr = Login :: MakeDir :: WriteCredential :: rest.
Proof.
  intros Hrun Hin.
  unfold run, provisioner_main, mbind, mret, emit, lift, try_except, raise in Hrun.
  destruct (py_strip (user_input w)) as [|u us] eqn:Eu; cbn in Hrun;
    [injection Hrun as _ <-; destruct Hin as [H|[]]; discriminate H|].
  destruct (py_strip (password_input w)) as [|q qs] eqn:Ep; cbn in Hrun;
    [injection Hrun as _ <-; destruct Hin as [H|[]]; discriminate H|].
  split; [discriminate|]. split; [discriminate|].
  destruct (from_login w) as [[]|e]; cbn in Hrun.
  2:{ destruct e; cbn in Hrun; injection Hrun as _ <-; cbn in Hin;
      repeat (destruct Hin as [Hin|Hin]; [discriminate Hin|]); destruct Hin. }
  destruct (auth_mkdir w) as [[]|e]; cbn in Hrun.
  2:{ destruct e; cbn in Hrun; injection Hrun as _ <-; cbn in Hin;
      repeat (destruct Hin as [Hin|Hin]; [discriminate Hin|]); destruct Hin. }
  repeat split; auto.
  destruct (to_file w) as [[]|e]; cbn in Hrun;
    [destruct (chmod w) as [[]|e]; cbn in Hrun; [|destruct e; cbn in Hrun]|destruct e; cbn in Hrun];
    injection Hrun as _ <-; eexists; reflexivity.
Qed.

Lemma provisioner_write_needs_login_witness :
  py_strip (user_input sample_login) <> []
  /\ py_strip (password_input sample_login) <> []
  /\ from_login sample_login = Ok tt /\ auth_mkdir sample_login = Ok tt
  /\ exists rest, [Login; MakeDir; WriteCredential; Chmod; Print]
                  = Login :: MakeDir :: WriteCredential :: rest.
Proof.
  apply (provisioner_write_needs_login sample_login 0%Z).
  - reflexivity.
  - right. right. left. reflexivity.
Defined.

(** ** [str.strip()] as the provisioner uses it *)

Lemma lstrip_chars_split (l : ustr) :
  exists pre, l = pre ++ lstrip_chars l /\ Forall (fun c => py_isspace c = true) pre
  /\ (lstrip_chars l = [] \/ exists c t, lstrip_chars l = c :: t /\ py_isspace c = false).
Proof.
  induction l as [|c l IH]; cbn [lstrip_chars].
  - exists []. auto.
  - destruct (py_isspace c) eqn:Ec.
    + destruct IH as (pre & Hl & Hpre & Hr). exists (c :: pre).
      split; [cbn [app]; congruence|]. auto.
    + exists []. split; [reflexivity|]. split; [constructor|]. right. eauto.
Qed.

Lemma Forall_rev' {A} (P : A -> Prop) (l : list A) : Forall P l -> Forall P (rev l).
Proof. intros H. apply Forall_forall. intros x Hx. apply in_rev in Hx. eapply Forall_forall; eauto. Qed.

(** [s.strip()] is [s] with a whitespace prefix and a whitespace suffix
    taken away, and what is left is empty or begins and ends with a
    non-whitespace character. *)
Theorem py_strip_spec (s : ustr) :
  exists pre post,
    s = pre ++ py_strip s ++ post
    /\ Forall (fun c => py_isspace c = true) pre
    /\ Forall (fun c => py_isspace c = true) post
    /\ (py_strip s = []
        \/ exists c t c' t', py_strip s = c :: t /\ py_strip s = t' ++ [c']
                             /\ py_isspace c = false /\ py_isspace c' = false).
Proof.
  unfold py_strip.
  destruct (lstrip_chars_split s) as (pre & Hl & Hpre & HL).
  set (L := lstrip_chars s) in *.
  destruct (lstrip_chars_split (rev L)) as (pre2 & HL2 & Hpre2 & HR).
  set (R := lstrip_chars (rev L)) in *.
  assert (HLr : L = rev R ++ rev pre2).
  { rewrite <- rev_app_distr, <- HL2. symmetry. apply rev_involutive. }
  exists pre, (rev pre2). split; [|split; [exact Hpre|split; [now apply Forall_rev'|]]].
  { rewrite Hl at 1. now rewrite HLr. }
  destruct HR as [HR | (c' & t' & HR & Hc')].
  - left. now rewrite HR.
  - right. destruct HL as [HL | (c & t & HL & Hc)].
    + rewrite HL, HR in HLr. apply (f_equal (@length Z)) in HLr.
      cbn in HLr. rewrite !length_app in HLr. cbn in HLr. lia.
    + rewrite HR in HLr |- *. cbn in HLr |- *.
      rewrite HL in HLr.
      destruct (rev t') as [|c0 t0] eqn:Et.
      * cbn in HLr. injection HLr as Hcc _. subst c'.
        eexists _, [], _, []. split; [reflexivity|]. split; [reflexivity|]. auto.
      * cbn in HLr. injection HLr as Hcc _. subst c0.
        eexists _, _, c', (_ :: t0). split; [reflexivity|]. split; [reflexivity|]. auto.
Qed.

Lemma lstrip_chars_all_space (l : ustr) :
  Forall (fun c => py_isspace c = true) l -> lstrip_chars l = [].
Proof. induction 1 as [|c l Hc _ IH]; cbn [lstrip_chars]; [reflexivity|]. now rewrite Hc. Qed.

(** A username that is empty or made only of whitespace (Unicode
    whitespace such as U+00A0 or U+3000 included) strips to the empty
    text, so the provisioner refuses it and exits with status 1 before any
    login. *)
Theorem provisioner_blank_username (w : provisioner_world) :
  Forall (fun c => py_isspace c = true) (user_input w) ->
  run (provisioner_main w) = (1%Z, [Print]).
Proof.
  intros H.
  assert (Hs : py_strip (user_input w) = []).
  { unfold py_strip. now rewrite (lstrip_chars_all_space _ H). }
  unfold_provisioner. rewrite Hs. reflexivity.
Qed.

Lemma provisioner_blank_username_witness :
  run (provisioner_main {| user_input := [160; 12288; 9]%Z;
                           password_input := ascii_codes "secret";
                           from_login := Ok tt; auth_mkdir := Ok tt;
                           to_file := Ok tt; chmod := Ok tt |}) = (1%Z, [Print]).
Proof. apply provisioner_blank_username. repeat constructor. Defined.

End Provisioner.
